(** * PushButtonControl.h: the declaration of the push-button widget adapter

    A verification model of [libgui/graphics/PushButtonControl.h].  The
    header holds no executable code: it is a guarded declaration of one
    class.  The development therefore has three layers:

    - the text of the header, line by line ([source_lines]), with the
      splitting of the byte text into lines;
    - the declarations of the header as a syntax tree ([PushButtonControl_h])
      together with a printer, so that the tree is tied to the text by
      [render_source];
    - a model of what the preprocessor does with the text (comment removal,
      directive recognition, conditional inclusion), used for the include
      guard. *)

From Stdlib Require Import Ascii String List Bool Arith Lia.
From stdpp Require Import base option list strings gmap.
Import ListNotations.

Local Open Scope string_scope.
Local Open Scope list_scope.

(** ** The text of the header *)

Module Text.

(** The double quote character, needed for line 26. *)
Definition dquote : string := String "034"%char EmptyString.

(** The line feed character separating the lines of the file. *)
Definition LF : ascii := "010"%char.

(** The separator line used throughout the Octave GUI sources: 78 slashes. *)
Definition rule_line : string :=
  "//////////////////////////////////////////////////////////////////////////////".

(** The lines of [PushButtonControl.h], in order.  The file does not end
    with a line feed: its last line is [#endif]. *)
Definition source_lines : list string :=
  [ "/*";
    "";
    "Copyright (C) 2011-2014 Michael Goffioul";
    "";
    "This file is part of Octave.";
    "";
    "Octave is free software; you can redistribute it and/or modify it";
    "under the terms of the GNU General Public License as published by the";
    "Free Software Foundation; either version 3 of the License, or (at your";
    "option) any later version.";
    "";
    "Octave is distributed in the hope that it will be useful, but WITHOUT";
    "ANY WARRANTY; without even the implied warranty of MERCHANTABILITY or";
    "FITNESS FOR A PARTICULAR PURPOSE.  See the GNU General Public License";
    "for more details.";
    "";
    "You should have received a copy of the GNU General Public License";
    "along with Octave; see the file COPYING.  If not, see";
    "<http://www.gnu.org/licenses/>.";
    "";
    "*/";
    "";
    "#ifndef __QtHandles_PushButtonControl__";
    "#define __QtHandles_PushButtonControl__ 1";
    "";
    "#include " +:+ dquote +:+ "ButtonControl.h" +:+ dquote;
    "";
    "class QPushButton;";
    "";
    "//////////////////////////////////////////////////////////////////////////////";
    "";
    "namespace QtHandles";
    "{";
    "";
    "//////////////////////////////////////////////////////////////////////////////";
    "";
    "class PushButtonControl : public ButtonControl";
    "{";
    "public:";
    "  PushButtonControl (const graphics_object& go, QPushButton* btn);";
    "  ~PushButtonControl (void);";
    "";
    "  static PushButtonControl* create (const graphics_object& go);";
    "";
    "protected:";
    "  void update (int pId);";
    "};";
    "";
    "//////////////////////////////////////////////////////////////////////////////";
    "";
    "}; // namespace QtHandles";
    "";
    "//////////////////////////////////////////////////////////////////////////////";
    "";
    "#endif" ].

(** Joining lines with a separator character, as the file stores them. *)
Fixpoint join_lines (ls : list string) : string :=
  match ls with
  | [] => EmptyString
  | [l] => l
  | l :: rest => l +:+ String LF (join_lines rest)
  end.

(** The byte text of the file. *)
Definition source_text : string := join_lines source_lines.

(** Splitting a text at its line feeds.  [cur] is the line being read, in
    reverse.  A text with [n] line feeds has [n + 1] lines, the last of
    which is empty when the text ends with a line feed. *)
Fixpoint split_lines_aux (s : string) (cur : list ascii) : list string :=
  match s with
  | EmptyString => [string_of_list_ascii (rev cur)]
  | String c rest =>
      if Ascii.eqb c LF
      then string_of_list_ascii (rev cur) :: split_lines_aux rest []
      else split_lines_aux rest (c :: cur)
  end.

Definition split_lines (s : string) : list string := split_lines_aux s [].

(** The number of line feed characters of a text. *)
Fixpoint count_LF (s : string) : nat :=
  match s with
  | EmptyString => 0
  | String c rest => (if Ascii.eqb c LF then 1 else 0) + count_LF rest
  end.

(** The number of lines of a text, as an editor numbers them. *)
Definition line_count (s : string) : nat := length (split_lines s).

(** The line with the given number, counting from 1 as an editor does. *)
Definition line (n : nat) : string := nth (n - 1) source_lines "".

(** Lines 39 to 46: what stands between the braces of the class. *)
Definition class_body_lines : list string := firstn 8 (skipn 38 source_lines).

(** *** Searching a line *)

Fixpoint has_prefix (p s : string) : bool :=
  match p, s with
  | EmptyString, _ => true
  | String a p', String b s' => Ascii.eqb a b && has_prefix p' s'
  | String _ _, EmptyString => false
  end.

Fixpoint has_infix (p s : string) : bool :=
  has_prefix p s
  || match s with
     | EmptyString => false
     | String _ s' => has_infix p s'
     end.

Fixpoint ends_with (c : ascii) (s : string) : bool :=
  match s with
  | EmptyString => false
  | String d EmptyString => Ascii.eqb c d
  | String _ rest => ends_with c rest
  end.

(** *** The parameter list of a declaration line *)

Definition reverse (s : string) : string :=
  string_of_list_ascii (rev (list_ascii_of_string s)).

(** The text after the first occurrence of [q]. *)
Fixpoint after_char (q : ascii) (s : string) : option string :=
  match s with
  | EmptyString => None
  | String c rest => if Ascii.eqb c q then Some rest else after_char q rest
  end.

(** The text before the last occurrence of [q]. *)
Definition before_last (q : ascii) (s : string) : option string :=
  match after_char q (reverse s) with
  | Some r => Some (reverse r)
  | None => None
  end.

Fixpoint split_commas_aux (s : string) (cur : list ascii) : list string :=
  match s with
  | EmptyString => [string_of_list_ascii (rev cur)]
  | String c rest =>
      if Ascii.eqb c ","%char
      then string_of_list_ascii (rev cur) :: split_commas_aux rest []
      else split_commas_aux rest (c :: cur)
  end.

Fixpoint trim_left (s : string) : string :=
  match s with
  | String c rest => if Ascii.eqb c " "%char then trim_left rest else s
  | EmptyString => EmptyString
  end.

(** The parameter declarations written between the parentheses of a
    function declaration, split at the commas. *)
Definition parameter_texts (l : string) : list string :=
  match after_char "("%char l with
  | Some r =>
      match before_last ")"%char r with
      | Some inner => map trim_left (split_commas_aux inner [])
      | None => []
      end
  | None => []
  end.

End Text.

(** ** The declarations of the header *)

Module Syntax.

Inductive access := Public | Protected | Private.

Inductive class_key := KClass | KStruct.

(** The types that occur in declarations.  [Tnamed] is a class or typedef
    name; the other constructors follow the declarator syntax. *)
Inductive cpp_type :=
| Tvoid
| Tint
| Tbool
| Tnamed (name : string)
| Tconst (t : cpp_type)
| Tref (t : cpp_type)
| Tptr (t : cpp_type).

Record param := Param { param_type : cpp_type; param_name : option string }.

Inductive fn_kind :=
| Constructor
| Destructor
| Function (ret : cpp_type) (name : string).

(** A member function declaration.  [fn_throw] is the exception
    specification, [fn_body] the statements of an in-class definition;
    both are absent from a plain declaration ending in a semicolon. *)
Record fn_decl := FnDecl {
  fn_static : bool;
  fn_virtual : bool;
  fn_kind_of : fn_kind;
  fn_params : list param;
  fn_const : bool;
  fn_throw : option (list cpp_type);
  fn_body : option (list string) }.

Inductive class_item :=
| CAccess (a : access)
| CFunction (f : fn_decl)
| CField (t : cpp_type) (name : string)
| CBlank.

Record base_spec := Base { base_access : option access; base_name : string }.

Record class_decl := ClassDecl {
  class_key_of : class_key;
  class_name : string;
  class_bases : list base_spec;
  class_items : list class_item }.

(** What may stand at namespace scope in a header of this family,
    preprocessor lines and layout included. *)
#[warnings="-register-all"]
Inductive item :=
| Blank
| Rule
| Comment (body : list string)
| Ifndef (macro : string)
| Define (macro value : string)
| Include (file : string) (angle : bool)
| Endif
| Forward (name : string)
| Class (c : class_decl)
| Namespace (name : string) (body : list item)
            (semicolon : bool) (trailer : option string).

Definition header := list item.

(** *** Printing *)

Fixpoint join_with (sep : string) (l : list string) : string :=
  match l with
  | [] => ""
  | [x] => x
  | x :: rest => x +:+ sep +:+ join_with sep rest
  end.

Fixpoint render_type (t : cpp_type) : string :=
  match t with
  | Tvoid => "void"
  | Tint => "int"
  | Tbool => "bool"
  | Tnamed n => n
  | Tconst t' => "const " +:+ render_type t'
  | Tref t' => render_type t' +:+ "&"
  | Tptr t' => render_type t' +:+ "*"
  end.

Definition render_param (p : param) : string :=
  match param_name p with
  | Some n => render_type (param_type p) +:+ " " +:+ n
  | None => render_type (param_type p)
  end.

Definition render_access (a : access) : string :=
  match a with
  | Public => "public"
  | Protected => "protected"
  | Private => "private"
  end.

Definition render_fn_head (cls : string) (k : fn_kind) : string :=
  match k with
  | Constructor => cls
  | Destructor => "~" +:+ cls
  | Function ret name => render_type ret +:+ " " +:+ name
  end.

Definition render_throw (t : option (list cpp_type)) : string :=
  match t with
  | None => ""
  | Some ts => " throw (" +:+ join_with ", " (map render_type ts) +:+ ")"
  end.

Definition render_fn (cls : string) (f : fn_decl) : list string :=
  let line :=
    "  " +:+ (if fn_static f then "static " else "")
         +:+ (if fn_virtual f then "virtual " else "")
         +:+ render_fn_head cls (fn_kind_of f)
         +:+ " (" +:+ join_with ", " (map render_param (fn_params f)) +:+ ")"
         +:+ (if fn_const f then " const" else "")
         +:+ render_throw (fn_throw f) in
  match fn_body f with
  | None => [line +:+ ";"]
  | Some stmts => line :: "  {" :: map (fun s => "    " +:+ s) stmts ++ ["  }"]
  end.

Definition render_class_item (cls : string) (it : class_item) : list string :=
  match it with
  | CAccess a => [render_access a +:+ ":"]
  | CFunction f => render_fn cls f
  | CField t n => ["  " +:+ render_type t +:+ " " +:+ n +:+ ";"]
  | CBlank => [""]
  end.

Definition render_base (b : base_spec) : string :=
  match base_access b with
  | Some a => render_access a +:+ " " +:+ base_name b
  | None => base_name b
  end.

Definition render_class_key (k : class_key) : string :=
  match k with KClass => "class" | KStruct => "struct" end.

Definition render_class (c : class_decl) : list string :=
  let head := render_class_key (class_key_of c) +:+ " " +:+ class_name c in
  let head :=
    match class_bases c with
    | [] => head
    | bs => head +:+ " : " +:+ join_with ", " (map render_base bs)
    end in
  head :: "{" :: flat_map (render_class_item (class_name c)) (class_items c)
       ++ ["};"].

Fixpoint render_item (it : item) : list string :=
  match it with
  | Blank => [""]
  | Rule => [Text.rule_line]
  | Comment body => "/*" :: body ++ ["*/"]
  | Ifndef m => ["#ifndef " +:+ m]
  | Define m v => ["#define " +:+ m +:+ " " +:+ v]
  | Include f angle =>
      [if angle then "#include <" +:+ f +:+ ">"
       else "#include " +:+ Text.dquote +:+ f +:+ Text.dquote]
  | Endif => ["#endif"]
  | Forward n => ["class " +:+ n +:+ ";"]
  | Class c => render_class c
  | Namespace n body semi trailer =>
      ("namespace " +:+ n) :: "{" :: flat_map render_item body
        ++ ["}" +:+ (if semi then ";" else "")
                +:+ match trailer with
                    | Some t => " // " +:+ t
                    | None => ""
                    end]
  end.

Definition render (h : header) : list string := flat_map render_item h.

End Syntax.

(** ** What a declaration says *)

Module Sema.
Import Syntax.

(** Members of a [class] are private until an access label says otherwise,
    those of a [struct] public; the same default applies to a base given
    without an access specifier. *)
Definition default_access (k : class_key) : access :=
  match k with KClass => Private | KStruct => Public end.

(** The member functions of a class body, each with the access in force
    where it is declared. *)
Fixpoint functions_from (cur : access) (items : list class_item)
  : list (access * fn_decl) :=
  match items with
  | [] => []
  | CAccess a :: rest => functions_from a rest
  | CFunction f :: rest => (cur, f) :: functions_from cur rest
  | CField _ _ :: rest => functions_from cur rest
  | CBlank :: rest => functions_from cur rest
  end.

Definition member_functions (c : class_decl) : list (access * fn_decl) :=
  functions_from (default_access (class_key_of c)) (class_items c).

(** The data members of a class body. *)
Fixpoint fields_from (cur : access) (items : list class_item)
  : list (access * (cpp_type * string)) :=
  match items with
  | [] => []
  | CAccess a :: rest => fields_from a rest
  | CField t n :: rest => (cur, (t, n)) :: fields_from cur rest
  | CFunction _ :: rest => fields_from cur rest
  | CBlank :: rest => fields_from cur rest
  end.

Definition data_members (c : class_decl) : list (access * (cpp_type * string)) :=
  fields_from (default_access (class_key_of c)) (class_items c).

(** A parameter list made of the single word [void] declares no parameter. *)
Definition parameters (f : fn_decl) : list param :=
  match fn_params f with
  | [ {| param_type := Tvoid; param_name := None |} ] => []
  | ps => ps
  end.

Definition arity (f : fn_decl) : nat := length (parameters f).

Definition return_type (f : fn_decl) : option cpp_type :=
  match fn_kind_of f with
  | Function ret _ => Some ret
  | Constructor | Destructor => None
  end.

Definition fn_name (cls : string) (f : fn_decl) : string :=
  match fn_kind_of f with
  | Constructor => cls
  | Destructor => "~" +:+ cls
  | Function _ name => name
  end.

(** A member is only declared when it has no body. *)
Definition has_body (f : fn_decl) : bool :=
  match fn_body f with Some _ => true | None => false end.

Definition is_pointer (t : cpp_type) : bool :=
  match t with Tptr _ => true | _ => false end.

(** The parameters of pointer type over all member functions, each with the
    name of the member that takes it. *)
Definition pointer_parameters (c : class_decl) : list (string * param) :=
  flat_map (fun af : access * fn_decl =>
              map (fun p => (fn_name (class_name c) af.2, p))
                  (filter (fun p => is_pointer (param_type p) = true)
                          (parameters af.2)))
           (member_functions c).

(** *** Derivation *)

Definition base_access_of (c : class_decl) (b : base_spec) : access :=
  match base_access b with
  | Some a => a
  | None => default_access (class_key_of c)
  end.

Definition is_public (a : access) : bool :=
  match a with Public => true | _ => false end.

Definition public_bases (c : class_decl) : list string :=
  map base_name (filter (fun b => is_public (base_access_of c b) = true)
                        (class_bases c)).

(** [is_a classes c b]: an object of class [c] is usable as an object of
    class [b], through a chain of public bases.  [classes] is the class
    table of the program; the classes of other headers enter through it. *)
Inductive is_a (classes : gmap string class_decl) : string -> string -> Prop :=
| is_a_refl c : is_a classes c c
| is_a_base c d b e :
    classes !! c = Some d ->
    b ∈ public_bases d ->
    is_a classes b e ->
    is_a classes c e.

(** *** Uses of a type name *)

(** The name occurs somewhere in the type. *)
Fixpoint mentions (n : string) (t : cpp_type) : bool :=
  match t with
  | Tvoid | Tint | Tbool => false
  | Tnamed m => String.eqb m n
  | Tconst t' | Tref t' | Tptr t' => mentions n t'
  end.

(** The type can only be used where the class [n] is completely defined:
    the name occurs outside any pointer or reference. *)
Fixpoint needs_complete (n : string) (t : cpp_type) : bool :=
  match t with
  | Tvoid | Tint | Tbool => false
  | Tnamed m => String.eqb m n
  | Tconst t' => needs_complete n t'
  | Tref _ | Tptr _ => false
  end.

(** Every type written in the member declarations of a class: return
    types, parameter types and the types of data members. *)
Definition types_of_fn (f : fn_decl) : list cpp_type :=
  match return_type f with Some r => [r] | None => [] end
  ++ map param_type (parameters f)
  ++ match fn_throw f with Some ts => ts | None => [] end.

Definition types_used (c : class_decl) : list cpp_type :=
  flat_map (fun af : access * fn_decl => types_of_fn af.2) (member_functions c)
  ++ map (fun d : access * (cpp_type * string) => d.2.1) (data_members c).

(** The class needs the complete definition of [n]: as a base, by value in
    a member declaration, or possibly inside a member's body. *)
Definition class_needs_complete (n : string) (c : class_decl) : bool :=
  existsb (fun b => String.eqb (base_name b) n) (class_bases c)
  || existsb (needs_complete n) (types_used c)
  || existsb (fun af : access * fn_decl => has_body af.2) (member_functions c).

(** *** Scopes *)

Inductive entity_kind := ClassForward | ClassDefinition | MemberFunction | DataMember.

#[global] Instance entity_kind_eq_dec : EqDecision entity_kind.
Proof. solve_decision. Defined.

Record entity := Entity {
  entity_scope : list string;
  entity_name : string;
  entity_kind_of : entity_kind }.

Definition class_entities (scope : list string) (c : class_decl) : list entity :=
  Entity scope (class_name c) ClassDefinition
  :: map (fun af : access * fn_decl =>
            Entity (scope ++ [class_name c]) (fn_name (class_name c) af.2)
                   MemberFunction)
         (member_functions c)
  ++ map (fun d : access * (cpp_type * string) =>
            Entity (scope ++ [class_name c]) d.2.2 DataMember)
         (data_members c).

(** The classes, functions and objects a header declares, each with the
    namespace path it is declared in.  A namespace is a scope: it contributes
    its name to the path of what it encloses. *)
Fixpoint declared (scope : list string) (it : item) : list entity :=
  match it with
  | Forward n => [Entity scope n ClassForward]
  | Class c => class_entities scope c
  | Namespace n body _ _ => flat_map (declared (scope ++ [n])) body
  | Blank | Rule | Comment _ | Ifndef _ | Define _ _ | Include _ _ | Endif => []
  end.

Definition declarations (h : header) : list entity := flat_map (declared []) h.

Definition qualified_name (e : entity) : string :=
  join_with "::" (entity_scope e ++ [entity_name e]).

Definition at_global_scope (e : entity) : bool :=
  match entity_scope e with [] => true | _ => false end.

(** The namespaces opened at the top level of a header. *)
Fixpoint namespaces (h : header) : list string :=
  match h with
  | [] => []
  | Namespace n _ _ _ :: rest => n :: namespaces rest
  | _ :: rest => namespaces rest
  end.

(** The macros a header defines and the files it includes, at any depth. *)
Fixpoint macros_of (it : item) : list string :=
  match it with
  | Define m _ => [m]
  | Namespace _ body _ _ => flat_map macros_of body
  | _ => []
  end.

Definition defined_macros (h : header) : list string := flat_map macros_of h.

Fixpoint includes_of (it : item) : list (string * bool) :=
  match it with
  | Include f angle => [(f, angle)]
  | Namespace _ body _ _ => flat_map includes_of body
  | _ => []
  end.

Definition includes (h : header) : list (string * bool) := flat_map includes_of h.

(** The classes a header only names, by a forward declaration. *)
Fixpoint forwards_of (it : item) : list string :=
  match it with
  | Forward n => [n]
  | Namespace _ body _ _ => flat_map forwards_of body
  | _ => []
  end.

Definition forward_declared (h : header) : list string := flat_map forwards_of h.

(** The classes a header defines (with a body), at any depth. *)
Fixpoint classes_of (it : item) : list class_decl :=
  match it with
  | Class c => [c]
  | Namespace _ body _ _ => flat_map classes_of body
  | _ => []
  end.

Definition defined_classes (h : header) : list class_decl := flat_map classes_of h.

(** *** Error paths *)

Definition error_words : list string :=
  ["error"; "Error"; "exception"; "Exception"; "status"; "Status"].

(** A type that reports success or failure: a status integer or flag, or a
    class named after errors, exceptions or status. *)
Fixpoint error_type (t : cpp_type) : bool :=
  match t with
  | Tint | Tbool => true
  | Tnamed n => existsb (fun w => Text.has_infix w n) error_words
  | Tconst t' => error_type t'
  | Tvoid | Tref _ | Tptr _ => false
  end.

(** A parameter through which an error is handed back: a reference or
    pointer to a modifiable error type. *)
Definition error_parameter (p : param) : bool :=
  match param_type p with
  | Tref (Tconst _) | Tptr (Tconst _) => false
  | Tref t | Tptr t => error_type t
  | _ => false
  end.

Definition has_exception_specification (f : fn_decl) : bool :=
  match fn_throw f with Some _ => true | None => false end.

Definition error_return (f : fn_decl) : bool :=
  match return_type f with Some r => error_type r | None => false end.

(** A member declares an error path when its declaration has one of the
    three. *)
Definition declares_error_path (f : fn_decl) : bool :=
  error_return f
  || has_exception_specification f
  || existsb error_parameter (parameters f).

End Sema.

(** ** The header [PushButtonControl.h] as declarations *)

Module QtHandles.
Import Syntax.

(** [PushButtonControl (const graphics_object& go, QPushButton* btn);] *)
Definition PushButtonControl_ctor : fn_decl :=
  {| fn_static := false; fn_virtual := false;
     fn_kind_of := Constructor;
     fn_params := [ Param (Tref (Tconst (Tnamed "graphics_object"))) (Some "go");
                    Param (Tptr (Tnamed "QPushButton")) (Some "btn") ];
     fn_const := false; fn_throw := None; fn_body := None |}.

(** [~PushButtonControl (void);] *)
Definition PushButtonControl_dtor : fn_decl :=
  {| fn_static := false; fn_virtual := false;
     fn_kind_of := Destructor;
     fn_params := [ Param Tvoid None ];
     fn_const := false; fn_throw := None; fn_body := None |}.

(** [static PushButtonControl* create (const graphics_object& go);] *)
Definition create : fn_decl :=
  {| fn_static := true; fn_virtual := false;
     fn_kind_of := Function (Tptr (Tnamed "PushButtonControl")) "create";
     fn_params := [ Param (Tref (Tconst (Tnamed "graphics_object"))) (Some "go") ];
     fn_const := false; fn_throw := None; fn_body := None |}.

(** [void update (int pId);] *)
Definition update : fn_decl :=
  {| fn_static := false; fn_virtual := false;
     fn_kind_of := Function Tvoid "update";
     fn_params := [ Param Tint (Some "pId") ];
     fn_const := false; fn_throw := None; fn_body := None |}.

(** [class PushButtonControl : public ButtonControl { ... };] *)
Definition PushButtonControl : class_decl :=
  {| class_key_of := KClass;
     class_name := "PushButtonControl";
     class_bases := [ Base (Some Public) "ButtonControl" ];
     class_items :=
       [ CAccess Public;
         CFunction PushButtonControl_ctor;
         CFunction PushButtonControl_dtor;
         CBlank;
         CFunction create;
         CBlank;
         CAccess Protected;
         CFunction update ] |}.

End QtHandles.

Module Header.
Import Syntax.

(** The include guard macro of the header. *)
Definition guard_macro : string := "__QtHandles_PushButtonControl__".

(** The text between the comment delimiters of lines 1 and 21. *)
Definition license : list string :=
  [ "";
    "Copyright (C) 2011-2014 Michael Goffioul";
    "";
    "This file is part of Octave.";
    "";
    "Octave is free software; you can redistribute it and/or modify it";
    "under the terms of the GNU General Public License as published by the";
    "Free Software Foundation; either version 3 of the License, or (at your";
    "option) any later version.";
    "";
    "Octave is distributed in the hope that it will be useful, but WITHOUT";
    "ANY WARRANTY; without even the implied warranty of MERCHANTABILITY or";
    "FITNESS FOR A PARTICULAR PURPOSE.  See the GNU General Public License";
    "for more details.";
    "";
    "You should have received a copy of the GNU General Public License";
    "along with Octave; see the file COPYING.  If not, see";
    "<http://www.gnu.org/licenses/>.";
    "" ].

(** Lines 25 to 54: what stands between the [#define] of the guard and the
    closing [#endif]. *)
Definition guarded_lines : list string := firstn 30 (skipn 24 Text.source_lines).

(** Lines 27 to 54: what follows the include directive inside the guard. *)
Definition declaration_lines : list string := firstn 28 (skipn 26 Text.source_lines).

(** An included file that declares nothing and defines no macro, and a text
    without macro uses: the simplest surroundings to run the header in. *)
Definition empty_include (f : string) (env : gmap string string)
  : gmap string string * list string := (env, []).

Definition no_expansion (env : gmap string string) (l : string) : string := l.

(** The whole header, top to bottom. *)
Definition PushButtonControl_h : header :=
  [ Comment license;
    Blank;
    Ifndef guard_macro;
    Define guard_macro "1";
    Blank;
    Include "ButtonControl.h" false;
    Blank;
    Forward "QPushButton";
    Blank;
    Rule;
    Blank;
    Namespace "QtHandles"
      [ Blank; Rule; Blank;
        Class QtHandles.PushButtonControl;
        Blank; Rule; Blank ]
      true (Some "namespace QtHandles");
    Blank;
    Rule;
    Blank;
    Endif ].

End Header.

(** ** The preprocessor's view of a header *)

Module Preproc.

(** *** Comment removal *)

(** A block comment may run over several lines, so the scanner carries its
    state from one line to the next.  String literals are not recognised:
    the only one in this family of headers is the file name of an include
    directive, which holds no slash. *)
Inductive scan_state := InCode | InComment.

Definition slash : ascii := "/"%char.
Definition star : ascii := "*"%char.

(** One line: a block comment becomes one space, a line comment ends the
    line. *)
Fixpoint strip_line (st : scan_state) (s : string) : string * scan_state :=
  match s with
  | EmptyString => (EmptyString, st)
  | String c rest =>
      match st, rest with
      | InCode, String d rest' =>
          if Ascii.eqb c slash && Ascii.eqb d slash then (EmptyString, InCode)
          else if Ascii.eqb c slash && Ascii.eqb d star then
            let '(o, st') := strip_line InComment rest' in
            (String " "%char o, st')
          else
            let '(o, st') := strip_line InCode rest in
            (String c o, st')
      | InCode, EmptyString => (String c EmptyString, InCode)
      | InComment, String d rest' =>
          if Ascii.eqb c star && Ascii.eqb d slash
          then strip_line InCode rest'
          else strip_line InComment rest
      | InComment, EmptyString => (EmptyString, InComment)
      end
  end.

Fixpoint strip_comments (st : scan_state) (ls : list string) : list string :=
  match ls with
  | [] => []
  | l :: rest =>
      let '(o, st') := strip_line st l in
      o :: strip_comments st' rest
  end.

(** *** Directives *)

Inductive directive :=
| DIfndef (macro : string)
| DDefine (macro value : string)
| DInclude (file : string)
| DEndif
| DBlank
| DText (line : string)
| DUnknown (line : string).

Fixpoint drop_spaces (s : string) : string :=
  match s with
  | EmptyString => EmptyString
  | String c rest => if Ascii.is_space c then drop_spaces rest else s
  end.

(** The leading run of characters that are not white space, and the rest. *)
Fixpoint word (s : string) : string * string :=
  match s with
  | EmptyString => (EmptyString, EmptyString)
  | String c rest =>
      if Ascii.is_space c then (EmptyString, s)
      else let '(w, r) := word rest in (String c w, r)
  end.

(** The characters up to the first occurrence of [q], if there is one. *)
Fixpoint until_char (q : ascii) (s : string) : option string :=
  match s with
  | EmptyString => None
  | String c rest =>
      if Ascii.eqb c q then Some EmptyString
      else match until_char q rest with
           | Some w => Some (String c w)
           | None => None
           end
  end.

Definition classify (line : string) : directive :=
  match drop_spaces line with
  | EmptyString => DBlank
  | String c rest =>
      if Ascii.eqb c "#"%char then
        let '(name, args) := word (drop_spaces rest) in
        let args := drop_spaces args in
        if String.eqb name "ifndef" then DIfndef (word args).1
        else if String.eqb name "define" then
          let '(m, v) := word args in DDefine m (drop_spaces v)
        else if String.eqb name "include" then
          match args with
          | String q file =>
              if Ascii.eqb q "034"%char then
                match until_char "034"%char file with
                | Some f => DInclude f
                | None => DUnknown line
                end
              else DUnknown line
          | EmptyString => DUnknown line
          end
        else if String.eqb name "endif" then DEndif
        else DUnknown line
      else DText line
  end.

Definition directives_of (lines : list string) : list directive :=
  map classify (strip_comments InCode lines).

(** *** Conditional inclusion *)

Section Run.

(** What including another file does in a macro environment: the new
    environment and the lines it contributes. *)
Variable include_file :
  string -> gmap string string -> gmap string string * list string.

(** Macro replacement in a line of text. *)
Variable expand : gmap string string -> string -> string.

Record state := State {
  macros : gmap string string;
  conds : list bool;
  emitted : list string }.

(** A line takes effect when every enclosing condition holds. *)
Definition active (st : state) : bool := forallb (fun b : bool => b) (conds st).

Definition step (st : state) (d : directive) : option state :=
  match d with
  | DIfndef m =>
      Some (State (macros st)
                  (bool_decide (macros st !! m = None) :: conds st)
                  (emitted st))
  | DEndif =>
      match conds st with
      | [] => None
      | _ :: cs => Some (State (macros st) cs (emitted st))
      end
  | DDefine m v =>
      Some (if active st
            then State (<[m:=v]> (macros st)) (conds st) (emitted st)
            else st)
  | DInclude f =>
      Some (if active st
            then State (include_file f (macros st)).1 (conds st)
                       (emitted st ++ (include_file f (macros st)).2)
            else st)
  | DBlank => Some st
  | DText l =>
      Some (if active st
            then State (macros st) (conds st)
                       (emitted st ++ [expand (macros st) l])
            else st)
  | DUnknown _ => if active st then None else Some st
  end.

Fixpoint run (ds : list directive) (st : state) : option state :=
  match ds with
  | [] => Some st
  | d :: rest =>
      match step st d with
      | Some st' => run rest st'
      | None => None
      end
  end.

(** Preprocessing a file in an environment; it fails on a directive that is
    not understood, an [#endif] without its [#ifndef], or a conditional left
    open. *)
Definition preprocess (lines : list string) (env : gmap string string)
  : option (gmap string string * list string) :=
  match run (directives_of lines) (State env [] []) with
  | Some st =>
      match conds st with
      | [] => Some (macros st, emitted st)
      | _ :: _ => None
      end
  | None => None
  end.

(** Including the same file [n] times in a row. *)
Fixpoint include_times (n : nat) (lines : list string) (env : gmap string string)
  : option (gmap string string * list string) :=
  match n with
  | 0 => Some (env, [])
  | S k =>
      match preprocess lines env with
      | Some (env', out) =>
          match include_times k lines env' with
          | Some (env'', out') => Some (env'', out ++ out')
          | None => None
          end
      | None => None
      end
  end.

End Run.

(** *** The include guard idiom *)

Definition is_blank (d : directive) : bool :=
  match d with DBlank => true | _ => false end.

(** A directive that opens or closes no conditional and is understood. *)
Definition unconditional (d : directive) : bool :=
  match d with
  | DDefine _ _ | DInclude _ | DBlank | DText _ => true
  | DIfndef _ | DEndif | DUnknown _ => false
  end.

Fixpoint drop_blank (ds : list directive) : list directive :=
  match ds with
  | d :: rest => if is_blank d then drop_blank rest else ds
  | [] => []
  end.

(** A file is guarded by [m] when, blank and comment lines apart, it starts
    with [#ifndef m] followed by [#define m v], ends with [#endif], and has
    no other conditional in between.  The result is the macro, its value
    and the guarded lines. *)
Definition include_guard (ds : list directive)
  : option (string * string * list directive) :=
  match drop_blank ds with
  | DIfndef m :: DDefine m' v :: rest =>
      match drop_blank (rev rest) with
      | DEndif :: body =>
          if String.eqb m m' && forallb unconditional body
          then Some (m, v, rev body)
          else None
      | _ => None
      end
  | _ => None
  end.

Definition included_files (ds : list directive) : list string :=
  flat_map (fun d => match d with DInclude f => [f] | _ => [] end) ds.

(** A line that neither defines a macro nor reads a file. *)
Definition passive (d : directive) : bool :=
  match d with DBlank | DText _ => true | _ => false end.

(** The lines of text among directives: what goes on to the compiler when
    every condition holds. *)
Definition text_lines (ds : list directive) : list string :=
  flat_map (fun d => match d with DText l => [l] | _ => [] end) ds.

End Preproc.

(** ** Surroundings of the header *)

Module Surroundings.

(** A [ButtonControl.h] that does nothing but include [PushButtonControl.h]
    back: the worst case of a circular chain of includes.  [inner] is what
    the inner copy of the header would use to read [ButtonControl.h] in
    turn. *)
Definition circular_include
  (inner : string -> gmap string string -> gmap string string * list string)
  (expand : gmap string string -> string -> string)
  (f : string) (env : gmap string string)
  : gmap string string * list string :=
  match Preproc.preprocess inner expand Text.source_lines env with
  | Some r => r
  | None => (env, [])
  end.

End Surroundings.

Lemma source_text_bytes : String.length Text.source_text = 1463.
Proof. vm_compute. reflexivity. Qed.

Lemma split_source_text : Text.split_lines Text.source_text = Text.source_lines.
Proof. vm_compute. reflexivity. Qed.

Lemma source_text_line_feeds : Text.count_LF Text.source_text = 54.
Proof. vm_compute. reflexivity. Qed.

Lemma render_source : Syntax.render Header.PushButtonControl_h = Text.source_lines.
Proof. vm_compute. reflexivity. Qed.

(** ** Conditional inclusion: general facts *)

Section Guarded.
Import Preproc.

Context (include_file :
           string -> gmap string string -> gmap string string * list string)
        (expand : gmap string string -> string -> string).

Local Abbreviation run := (Preproc.run include_file expand).
Local Abbreviation step := (Preproc.step include_file expand).

Lemma run_app ds1 ds2 st :
  run (ds1 ++ ds2) st = run ds1 st ≫= run ds2.
Proof.
  revert st. induction ds1 as [|d ds1 IH]; intros st; simpl; [done|].
  destruct (step st d) as [st'|]; simpl; [apply IH | done].
Qed.

Lemma run_blank ds st :
  forallb is_blank ds = true -> run ds st = Some st.
Proof.
  induction ds as [|d ds IH]; simpl; [done|].
  intros [Hd Hds]%andb_true_iff. destruct d; try discriminate. simpl. auto.
Qed.

(** Inside a conditional whose condition fails, plain lines do nothing. *)
Lemma run_skipped ds st :
  forallb unconditional ds = true -> active st = false -> run ds st = Some st.
Proof.
  intros Hds Hact. induction ds as [|d ds IH]; simpl; [done|].
  apply andb_true_iff in Hds as [Hd Hds].
  destruct d; try discriminate; simpl; rewrite ?Hact; auto.
Qed.

(** Plain lines leave the conditionals as they are, and a macro that is
    defined stays defined, provided the included files do not undefine it. *)
Lemma run_plain g ds st :
  forallb unconditional ds = true ->
  (forall f e, In f (included_files ds) ->
               is_Some (e !! g) -> is_Some ((include_file f e).1 !! g)) ->
  is_Some (macros st !! g) ->
  exists st', run ds st = Some st' /\ conds st' = conds st
              /\ is_Some (macros st' !! g).
Proof.
  revert st. induction ds as [|d ds IH]; intros st Hds Hinc Hg; simpl.
  { eauto. }
  apply andb_true_iff in Hds as [Hd Hds].
  assert (Hinc' : forall f e, In f (included_files ds) ->
            is_Some (e !! g) -> is_Some ((include_file f e).1 !! g)).
  { intros f e Hf. apply Hinc. unfold included_files in *. simpl.
    apply in_or_app. by right. }
  destruct d as [| m v | f | | | l |]; try discriminate; simpl.
  - destruct (active st); simpl.
    + destruct (IH (State (<[m:=v]> (macros st)) (conds st) (emitted st)))
        as (st' & ? & ? & ?); auto.
      { simpl. destruct (decide (m = g)) as [->|Hne].
        - rewrite lookup_insert_eq. eauto.
        - by rewrite lookup_insert_ne. }
      eauto.
    + apply IH; auto.
  - destruct (active st); simpl.
    + destruct (IH (State (include_file f (macros st)).1 (conds st)
                          (emitted st ++ (include_file f (macros st)).2)))
        as (st' & ? & ? & ?); auto.
      { simpl. apply Hinc; [|done]. unfold included_files. simpl. by left. }
      eauto.
    + apply IH; auto.
  - apply IH; auto.
  - destruct (active st); simpl.
    + destruct (IH (State (macros st) (conds st)
                          (emitted st ++ [expand (macros st) l])))
        as (st' & ? & ? & ?); auto.
      eauto.
    + apply IH; auto.
Qed.

Lemma drop_blank_split ds :
  exists pre, ds = pre ++ drop_blank ds /\ forallb is_blank pre = true.
Proof.
  induction ds as [|d ds (pre & Hpre & Hb)]; simpl.
  - by exists [].
  - destruct (is_blank d) eqn:Hd.
    + exists (d :: pre). simpl. rewrite Hd, Hb. split; [by f_equal | done].
    + by exists [].
Qed.

Lemma forallb_rev {A} (f : A -> bool) (l : list A) :
  forallb f (rev l) = forallb f l.
Proof.
  induction l as [|x l IH]; simpl; [done|].
  rewrite forallb_app, IH. simpl. rewrite andb_true_r. apply andb_comm.
Qed.

(** The shape of a guarded file. *)
Lemma include_guard_shape ds m v body :
  include_guard ds = Some (m, v, body) ->
  exists pre post,
    ds = pre ++ DIfndef m :: DDefine m v :: body ++ DEndif :: post
    /\ forallb is_blank pre = true
    /\ forallb is_blank post = true
    /\ forallb unconditional body = true.
Proof.
  unfold include_guard. intros H.
  destruct (drop_blank_split ds) as (pre & Hds & Hpre).
  destruct (drop_blank ds) as [|[m0| | | | | |] [|[|m1 v1| | | | |] rest]];
    try discriminate.
  destruct (drop_blank_split (rev rest)) as (tl & Hrest & Htl).
  destruct (drop_blank (rev rest)) as [|[] body']; try discriminate.
  destruct (String.eqb m0 m1) eqn:Hm; simpl in H; [|discriminate].
  destruct (forallb unconditional body') eqn:Hbody; [|discriminate].
  apply String.eqb_eq in Hm. simplify_eq.
  exists pre, (rev tl). repeat split; auto.
  - do 3 f_equal.
    rewrite <- (rev_involutive rest), Hrest, rev_app_distr. simpl.
    by rewrite <- app_assoc.
  - by rewrite forallb_rev.
  - by rewrite forallb_rev.
Qed.

(** A guarded file whose guard is already defined contributes nothing. *)
Lemma guarded_defined lines g v body env :
  include_guard (directives_of lines) = Some (g, v, body) ->
  is_Some (env !! g) ->
  preprocess include_file expand lines env = Some (env, []).
Proof.
  intros (pre & post & Hds & Hpre & Hpost & Hbody)%include_guard_shape Hg.
  unfold preprocess. rewrite Hds, run_app, run_blank by done. simpl.
  rewrite bool_decide_eq_false_2 by (intros Hn; rewrite Hn in Hg; by destruct Hg).
  rewrite run_app, run_skipped by done. simpl.
  by rewrite run_blank.
Qed.

(** A guarded file is always accepted, and leaves its guard defined. *)
Lemma guarded_defines lines g v body env :
  include_guard (directives_of lines) = Some (g, v, body) ->
  (forall f e, In f (included_files body) ->
               is_Some (e !! g) -> is_Some ((include_file f e).1 !! g)) ->
  exists env' out,
    preprocess include_file expand lines env = Some (env', out)
    /\ is_Some (env' !! g).
Proof.
  intros Hguard Hinc.
  destruct (env !! g) as [x|] eqn:Hg.
  { exists env, []. split; [|by rewrite Hg].
    eapply guarded_defined; eauto. }
  destruct (include_guard_shape _ _ _ _ Hguard)
    as (pre & post & Hds & Hpre & Hpost & Hbody).
  unfold preprocess. rewrite Hds, run_app, run_blank by done. simpl.
  rewrite bool_decide_eq_true_2 by done. simpl.
  rewrite run_app.
  destruct (run_plain g body (State (<[g:=v]> env) [true] []))
    as (st' & Hrun & Hconds & Hdef); auto.
  { simpl. rewrite lookup_insert_eq. eauto. }
  rewrite Hrun. simpl. simpl in Hconds. rewrite Hconds.
  rewrite run_blank by done. simpl. eauto.
Qed.

(** Including a guarded file again, any number of times, adds nothing. *)
Lemma guarded_again lines g v body env n :
  include_guard (directives_of lines) = Some (g, v, body) ->
  is_Some (env !! g) ->
  include_times include_file expand n lines env = Some (env, []).
Proof.
  intros Hguard Hg. induction n as [|n IH]; simpl; [done|].
  by rewrite (guarded_defined _ _ _ _ _ Hguard Hg), IH.
Qed.

Lemma guarded_idempotent lines g v body env n :
  include_guard (directives_of lines) = Some (g, v, body) ->
  (forall f e, In f (included_files body) ->
               is_Some (e !! g) -> is_Some ((include_file f e).1 !! g)) ->
  exists r,
    preprocess include_file expand lines env = Some r
    /\ include_times include_file expand (S n) lines env = Some r.
Proof.
  intros Hguard Hinc.
  destruct (guarded_defines _ _ _ _ env Hguard Hinc) as (env' & out & Hpre & Hg).
  exists (env', out). split; [done|]. simpl.
  rewrite Hpre, (guarded_again _ _ _ _ _ n Hguard Hg).
  by rewrite app_nil_r.
Qed.

End Guarded.

(** ** The text and the declarations agree *)

Example line_40 :
  Text.line 40 = "  PushButtonControl (const graphics_object& go, QPushButton* btn);".
Proof. reflexivity. Qed.

Example line_43_parameters :
  Text.parameter_texts (Text.line 43) = ["const graphics_object& go"].
Proof. vm_compute. reflexivity. Qed.

Example line_41_parameters : Text.parameter_texts (Text.line 41) = ["void"].
Proof. vm_compute. reflexivity. Qed.

(** The class of the header is the one defined in namespace [QtHandles]. *)
Lemma defined_classes_header :
  Sema.defined_classes Header.PushButtonControl_h = [QtHandles.PushButtonControl].
Proof. reflexivity. Qed.

(** ** The class declaration *)

Section Claims.
Import Syntax Sema QtHandles Header.

(** C1. The class declares exactly four members and nothing else: a public
    constructor, a public destructor, a public static function [create] and
    a protected function [update].  None of them has a body, and the class
    has no data member: it holds no algorithm, state or data structure of
    its own.  In the text, the class body has four lines ending in a
    semicolon, and the only braces opened in the file are those of the
    namespace and of the class. *)
Theorem PushButtonControl_declares_four_members :
  member_functions PushButtonControl
    = [ (Public, PushButtonControl_ctor); (Public, PushButtonControl_dtor);
        (Public, create); (Protected, update) ]
  /\ map (fun af : access * fn_decl =>
            (af.1, fn_name "PushButtonControl" af.2, fn_static af.2))
         (member_functions PushButtonControl)
     = [ (Public, "PushButtonControl", false);
         (Public, "~PushButtonControl", false);
         (Public, "create", true);
         (Protected, "update", false) ]
  /\ fn_kind_of PushButtonControl_ctor = Constructor
  /\ fn_kind_of PushButtonControl_dtor = Destructor
  /\ length (member_functions PushButtonControl)
     + length (data_members PushButtonControl) = 4
  /\ data_members PushButtonControl = []
  /\ forallb (fun af : access * fn_decl => negb (has_body af.2))
             (member_functions PushButtonControl) = true
  /\ defined_classes PushButtonControl_h = [PushButtonControl]
  /\ render PushButtonControl_h = Text.source_lines
  /\ filter (fun l => Text.ends_with ";" l = true) Text.class_body_lines
     = flat_map (fun af : access * fn_decl => render_fn "PushButtonControl" af.2)
                (member_functions PushButtonControl)
  /\ filter (fun l => Text.has_infix "{" l = true) Text.source_lines
     = [Text.line 33; Text.line 38].
Proof. repeat split; vm_compute; reflexivity. Qed.

(** C2. [PushButtonControl] derives publicly from [ButtonControl], its only
    base: in any program that holds this class, an object of class
    [PushButtonControl] is a [ButtonControl], and is whatever a
    [ButtonControl] is. *)
Theorem PushButtonControl_is_a_ButtonControl (classes : gmap string class_decl) :
  classes !! "PushButtonControl" = Some PushButtonControl ->
  class_bases PushButtonControl = [Base (Some Public) "ButtonControl"]
  /\ public_bases PushButtonControl = ["ButtonControl"]
  /\ is_a classes "PushButtonControl" "ButtonControl"
  /\ forall b, is_a classes "ButtonControl" b -> is_a classes "PushButtonControl" b.
Proof.
  intros Hcls.
  assert (Hbase : "ButtonControl" ∈ public_bases PushButtonControl).
  { apply list_elem_of_In. simpl. by left. }
  repeat split; try reflexivity.
  - eapply is_a_base; [exact Hcls | exact Hbase | apply is_a_refl].
  - intros b Hb. eapply is_a_base; [exact Hcls | exact Hbase | exact Hb].
Qed.

Lemma PushButtonControl_is_a_ButtonControl_witness :
  ({[ "PushButtonControl" := PushButtonControl ]} : gmap string class_decl)
    !! "PushButtonControl" = Some PushButtonControl
  /\ is_a {[ "PushButtonControl" := PushButtonControl ]}
          "PushButtonControl" "ButtonControl".
Proof.
  assert (Hcls : ({[ "PushButtonControl" := PushButtonControl ]}
                    : gmap string class_decl)
                   !! "PushButtonControl" = Some PushButtonControl)
    by reflexivity.
  split; [exact Hcls|].
  exact (proj1 (proj2 (proj2
           (PushButtonControl_is_a_ButtonControl _ Hcls)))).
Defined.

(** C3. The constructor takes exactly two parameters: a reference to a
    constant [graphics_object] and a pointer to [QPushButton].  This is what
    line 40 of the header says between its parentheses. *)
Theorem PushButtonControl_ctor_parameters :
  fn_kind_of PushButtonControl_ctor = Constructor
  /\ arity PushButtonControl_ctor = 2
  /\ map param_type (parameters PushButtonControl_ctor)
     = [ Tref (Tconst (Tnamed "graphics_object")); Tptr (Tnamed "QPushButton") ]
  /\ render_fn "PushButtonControl" PushButtonControl_ctor = [Text.line 40]
  /\ map render_param (fn_params PushButtonControl_ctor)
     = Text.parameter_texts (Text.line 40)
  /\ Text.parameter_texts (Text.line 40)
     = ["const graphics_object& go"; "QPushButton* btn"].
Proof. repeat split; vm_compute; reflexivity. Qed.

(** C4. The static member [create] takes one parameter, a reference to a
    constant [graphics_object], and no widget pointer; it returns a pointer
    to [PushButtonControl].  This is line 43 of the header. *)
Theorem create_signature :
  fn_static create = true
  /\ fn_name "PushButtonControl" create = "create"
  /\ arity create = 1
  /\ map param_type (parameters create)
     = [ Tref (Tconst (Tnamed "graphics_object")) ]
  /\ existsb (fun p => is_pointer (param_type p)) (parameters create) = false
  /\ return_type create = Some (Tptr (Tnamed (class_name PushButtonControl)))
  /\ render_fn "PushButtonControl" create = [Text.line 43]
  /\ map render_param (fn_params create) = Text.parameter_texts (Text.line 43).
Proof. repeat split; vm_compute; reflexivity. Qed.

(** C5. The class declaration introduces no data member.  The only pointer
    handed to the class is the widget pointer of the constructor, a
    [QPushButton*]; what becomes of it is not said in this header. *)
Theorem PushButtonControl_wraps_only_the_widget_pointer :
  data_members PushButtonControl = []
  /\ pointer_parameters PushButtonControl
     = [ ("PushButtonControl", Param (Tptr (Tnamed "QPushButton")) (Some "btn")) ]
  /\ map (fun e => (qualified_name e, entity_kind_of e))
         (filter (fun e => entity_kind_of e = DataMember)
                 (declarations PushButtonControl_h)) = [].
Proof. repeat split; vm_compute; reflexivity. Qed.

(** C6. No member declares an error path: none has an exception
    specification, a return type that reports an error or a parameter that
    hands one back.  [update] returns [void]; the constructor and the
    destructor have no return type and no exception specification. *)
Theorem PushButtonControl_declares_no_error_path :
  forallb (fun af : access * fn_decl => negb (declares_error_path af.2))
          (member_functions PushButtonControl) = true
  /\ map (fun af : access * fn_decl => fn_throw af.2)
         (member_functions PushButtonControl) = [None; None; None; None]
  /\ map (fun af : access * fn_decl => return_type af.2)
         (member_functions PushButtonControl)
     = [None; None; Some (Tptr (Tnamed "PushButtonControl")); Some Tvoid]
  /\ return_type update = Some Tvoid
  /\ existsb error_parameter
       (flat_map (fun af : access * fn_decl => parameters af.2)
                 (member_functions PushButtonControl)) = false
  /\ existsb (fun l => Text.has_infix "throw" l || Text.has_infix "noexcept" l)
             Text.class_body_lines = false.
Proof. repeat split; vm_compute; reflexivity. Qed.

(** C7. The header is 55 lines long: its text has 54 line feeds and does
    not end with one. *)
Theorem source_has_55_lines :
  Text.line_count Text.source_text = 55
  /\ Text.count_LF Text.source_text = 54
  /\ length Text.source_lines = 55
  /\ Text.split_lines Text.source_text = Text.source_lines
  /\ Text.line 55 = "#endif".
Proof. repeat split; vm_compute; reflexivity. Qed.

(** The guard of the header, read off its text: everything but the
    licence comment and blank lines stands between [#ifndef]/[#define] and
    [#endif]. *)
Lemma source_guard :
  Preproc.include_guard (Preproc.directives_of Text.source_lines)
  = Some (guard_macro, "1", Preproc.directives_of guarded_lines).
Proof. vm_compute. reflexivity. Qed.

Lemma guarded_includes :
  Preproc.included_files (Preproc.directives_of guarded_lines) = ["ButtonControl.h"].
Proof. vm_compute. reflexivity. Qed.

(** The first inclusion in an empty environment passes the declarations
    on and defines the guard; in the environment it leaves, the header
    contributes nothing. *)
Example first_inclusion :
  Preproc.preprocess empty_include no_expansion Text.source_lines ∅
  = Some ({[ guard_macro := "1" ]},
          [ "class QPushButton;";
            "namespace QtHandles";
            "{";
            "class PushButtonControl : public ButtonControl";
            "{";
            "public:";
            "  PushButtonControl (const graphics_object& go, QPushButton* btn);";
            "  ~PushButtonControl (void);";
            "  static PushButtonControl* create (const graphics_object& go);";
            "protected:";
            "  void update (int pId);";
            "};";
            "}; " ]).
Proof. vm_compute. reflexivity. Qed.

Example second_inclusion :
  Preproc.preprocess empty_include no_expansion Text.source_lines
                     {[ guard_macro := "1" ]}
  = Some ({[ guard_macro := "1" ]}, []).
Proof. vm_compute. reflexivity. Qed.

(** C8. The header is guarded by the macro [__QtHandles_PushButtonControl__],
    tested by [#ifndef], defined to [1], and closed by the final [#endif],
    with nothing but the licence comment outside.  Whatever the macro
    environment, the expansion of macros and the content of
    [ButtonControl.h] (as long as that file does not undefine the guard),
    including the header [n + 1] times in a row succeeds and gives what
    including it once gives. *)
Theorem PushButtonControl_h_idempotent
  (include_file : string -> gmap string string -> gmap string string * list string)
  (expand : gmap string string -> string -> string)
  (env : gmap string string) (n : nat) :
  (forall e : gmap string string,
     is_Some (e !! "__QtHandles_PushButtonControl__") ->
     is_Some ((include_file "ButtonControl.h" e).1
                !! "__QtHandles_PushButtonControl__")) ->
  Preproc.include_guard (Preproc.directives_of Text.source_lines)
    = Some ("__QtHandles_PushButtonControl__", "1",
            Preproc.directives_of guarded_lines)
  /\ exists r,
       Preproc.preprocess include_file expand Text.source_lines env = Some r
       /\ Preproc.include_times include_file expand (S n) Text.source_lines env
          = Some r.
Proof.
  intros Hkeep. split; [exact source_guard|].
  eapply guarded_idempotent; [exact source_guard|].
  intros f e Hf. rewrite guarded_includes in Hf.
  destruct Hf as [<-|[]]. apply Hkeep.
Qed.

Lemma PushButtonControl_h_idempotent_witness :
  (forall e : gmap string string,
     is_Some (e !! "__QtHandles_PushButtonControl__") ->
     is_Some ((empty_include "ButtonControl.h" e).1
                !! "__QtHandles_PushButtonControl__"))
  /\ exists r,
       Preproc.preprocess empty_include no_expansion Text.source_lines ∅ = Some r
       /\ Preproc.include_times empty_include no_expansion 3 Text.source_lines ∅
          = Some r.
Proof.
  assert (Hkeep : forall e : gmap string string,
     is_Some (e !! "__QtHandles_PushButtonControl__") ->
     is_Some ((empty_include "ButtonControl.h" e).1
                !! "__QtHandles_PushButtonControl__"))
    by (intros e He; exact He).
  split; [exact Hkeep|].
  exact (proj2 (PushButtonControl_h_idempotent
                  empty_include no_expansion ∅ 2 Hkeep)).
Defined.

(** C9. What the header declares lives in namespace [QtHandles]: the class
    is [QtHandles::PushButtonControl] and its members are inside it.  At
    global scope the header declares only the class name [QPushButton], and
    the only macro it defines is the guard. *)
Theorem declarations_are_in_QtHandles :
  declarations PushButtonControl_h
    = [ Entity [] "QPushButton" ClassForward;
        Entity ["QtHandles"] "PushButtonControl" ClassDefinition;
        Entity ["QtHandles"; "PushButtonControl"] "PushButtonControl" MemberFunction;
        Entity ["QtHandles"; "PushButtonControl"] "~PushButtonControl" MemberFunction;
        Entity ["QtHandles"; "PushButtonControl"] "create" MemberFunction;
        Entity ["QtHandles"; "PushButtonControl"] "update" MemberFunction ]
  /\ map qualified_name
         (filter (fun e => entity_kind_of e = ClassDefinition)
                 (declarations PushButtonControl_h))
     = ["QtHandles::PushButtonControl"]
  /\ filter (fun e => at_global_scope e = true) (declarations PushButtonControl_h)
     = [Entity [] "QPushButton" ClassForward]
  /\ forallb (fun e => match entity_scope e with
                       | ns :: _ => String.eqb ns "QtHandles"
                       | [] => false
                       end)
             (filter (fun e => entity_kind_of e <> ClassForward)
                     (declarations PushButtonControl_h)) = true
  /\ namespaces PushButtonControl_h = ["QtHandles"]
  /\ defined_macros PushButtonControl_h = ["__QtHandles_PushButtonControl__"].
Proof. repeat split; vm_compute; reflexivity. Qed.

(** C10. [QPushButton] is only forward declared here, and only used behind
    a pointer, in the second parameter of the constructor: the class
    declaration does not need its definition.  The header includes one
    file, [ButtonControl.h], which has to define the base class. *)
Theorem QPushButton_is_only_forward_declared :
  forward_declared PushButtonControl_h = ["QPushButton"]
  /\ map class_name (defined_classes PushButtonControl_h) = ["PushButtonControl"]
  /\ filter (fun t => mentions "QPushButton" t = true) (types_used PushButtonControl)
     = [Tptr (Tnamed "QPushButton")]
  /\ map (fun af : access * fn_decl =>
            existsb (mentions "QPushButton") (types_of_fn af.2))
         (member_functions PushButtonControl)
     = [true; false; false; false]
  /\ map (fun p => mentions "QPushButton" (param_type p))
         (parameters PushButtonControl_ctor) = [false; true]
  /\ class_needs_complete "QPushButton" PushButtonControl = false
  /\ class_needs_complete "ButtonControl" PushButtonControl = true
  /\ includes PushButtonControl_h = [("ButtonControl.h", false)]
  /\ Preproc.included_files (Preproc.directives_of Text.source_lines)
     = ["ButtonControl.h"].
Proof. repeat split; vm_compute; reflexivity. Qed.

End Claims.

(** ** The header under the preprocessor *)

Section Inclusion.
Import Header Preproc.

Context (include_file :
           string -> gmap string string -> gmap string string * list string)
        (expand : gmap string string -> string -> string).

(** Where every condition holds, lines of text are passed on in order,
    expanded in the macro environment, which they leave as it is. *)
Lemma run_text ds st :
  forallb passive ds = true ->
  active st = true ->
  run include_file expand ds st
  = Some (State (macros st) (conds st)
                (emitted st ++ map (expand (macros st)) (text_lines ds))).
Proof.
  revert st. induction ds as [|d ds IH]; intros st Hds Hact.
  { simpl. rewrite app_nil_r. by destruct st. }
  apply andb_true_iff in Hds as [Hd Hds].
  destruct d; try discriminate; simpl.
  - by apply IH.
  - rewrite Hact. rewrite IH by done. simpl.
    by rewrite <- app_assoc.
Qed.

Lemma run_cons d ds st :
  run include_file expand (d :: ds) st
  = step include_file expand st d ≫= run include_file expand ds.
Proof. simpl. by destruct (step include_file expand st d). Qed.

Lemma source_directives :
  directives_of Text.source_lines
  = replicate 22 DBlank
    ++ DIfndef guard_macro :: DDefine guard_macro "1"
    :: DBlank :: DInclude "ButtonControl.h"
    :: directives_of declaration_lines ++ [DEndif].
Proof. vm_compute. reflexivity. Qed.

Lemma guarded_text :
  text_lines (directives_of guarded_lines)
  = text_lines (directives_of declaration_lines).
Proof. vm_compute. reflexivity. Qed.

Lemma declaration_passive :
  forallb passive (directives_of declaration_lines) = true.
Proof. vm_compute. reflexivity. Qed.

Lemma first_inclusion_any env :
  env !! guard_macro = None ->
  preprocess include_file expand Text.source_lines env
  = Some ((include_file "ButtonControl.h" (<[guard_macro := "1"]> env)).1,
          (include_file "ButtonControl.h" (<[guard_macro := "1"]> env)).2
          ++ map (expand (include_file "ButtonControl.h"
                                       (<[guard_macro := "1"]> env)).1)
                 (text_lines (directives_of guarded_lines))).
Proof.
  intros Hg. unfold preprocess. rewrite source_directives.
  rewrite run_app, run_blank by (vm_compute; reflexivity).
  cbn [mbind option_bind].
  rewrite run_cons.
  cbn [step macros conds emitted mbind option_bind].
  rewrite bool_decide_eq_true_2 by exact Hg.
  do 3 (rewrite run_cons;
        cbn [step active macros conds emitted forallb andb mbind option_bind]).
  rewrite run_app, run_text by (exact declaration_passive || reflexivity).
  cbn [mbind option_bind]. rewrite run_cons.
  cbn [step run macros conds emitted mbind option_bind app].
  rewrite guarded_text. reflexivity.
Qed.

End Inclusion.

Lemma declaration_text :
  Preproc.text_lines (Preproc.directives_of Header.guarded_lines)
  = [ "class QPushButton;";
      "namespace QtHandles";
      "{";
      "class PushButtonControl : public ButtonControl";
      "{";
      "public:";
      "  PushButtonControl (const graphics_object& go, QPushButton* btn);";
      "  ~PushButtonControl (void);";
      "  static PushButtonControl* create (const graphics_object& go);";
      "protected:";
      "  void update (int pId);";
      "};";
      "}; " ].
Proof. vm_compute. reflexivity. Qed.

(** X1. When the guard macro is already defined, to whatever value, the
    header contributes nothing and changes no macro; [ButtonControl.h] is
    not even read, so the result does not depend on it. *)
Theorem defined_guard_suppresses_header
  (include_file : string -> gmap string string -> gmap string string * list string)
  (expand : gmap string string -> string -> string)
  (env : gmap string string) :
  is_Some (env !! "__QtHandles_PushButtonControl__") ->
  Preproc.preprocess include_file expand Text.source_lines env = Some (env, []).
Proof.
  intros Hg. eapply guarded_defined; [exact source_guard | exact Hg].
Qed.

Lemma defined_guard_suppresses_header_witness :
  is_Some (({[ "__QtHandles_PushButtonControl__" := "0" ]} : gmap string string)
             !! "__QtHandles_PushButtonControl__")
  /\ Preproc.preprocess Header.empty_include Header.no_expansion Text.source_lines
       {[ "__QtHandles_PushButtonControl__" := "0" ]}
     = Some ({[ "__QtHandles_PushButtonControl__" := "0" ]}, []).
Proof.
  assert (Hg : is_Some
            (({[ "__QtHandles_PushButtonControl__" := "0" ]} : gmap string string)
               !! "__QtHandles_PushButtonControl__"))
    by (exists "0"; reflexivity).
  split; [exact Hg|].
  exact (defined_guard_suppresses_header
           Header.empty_include Header.no_expansion _ Hg).
Defined.

(** X2. When the guard macro is not defined, the header defines it to [1]
    first, then reads [ButtonControl.h] once, in the environment where the
    guard is set, and then passes on its thirteen lines of declarations,
    after what [ButtonControl.h] contributed.  No line of the comment
    reaches the output. *)
Theorem first_inclusion_reads_ButtonControl_once
  (include_file : string -> gmap string string -> gmap string string * list string)
  (expand : gmap string string -> string -> string)
  (env : gmap string string) :
  env !! "__QtHandles_PushButtonControl__" = None ->
  Preproc.preprocess include_file expand Text.source_lines env
  = Some ((include_file "ButtonControl.h"
             (<["__QtHandles_PushButtonControl__" := "1"]> env)).1,
          (include_file "ButtonControl.h"
             (<["__QtHandles_PushButtonControl__" := "1"]> env)).2
          ++ map (expand (include_file "ButtonControl.h"
                            (<["__QtHandles_PushButtonControl__" := "1"]> env)).1)
                 [ "class QPushButton;";
                   "namespace QtHandles";
                   "{";
                   "class PushButtonControl : public ButtonControl";
                   "{";
                   "public:";
                   "  PushButtonControl (const graphics_object& go, QPushButton* btn);";
                   "  ~PushButtonControl (void);";
                   "  static PushButtonControl* create (const graphics_object& go);";
                   "protected:";
                   "  void update (int pId);";
                   "};";
                   "}; " ]).
Proof.
  intros Hg. rewrite <- declaration_text.
  exact (first_inclusion_any include_file expand env Hg).
Qed.

Lemma first_inclusion_reads_ButtonControl_once_witness :
  (∅ : gmap string string) !! "__QtHandles_PushButtonControl__" = None
  /\ exists out,
       Preproc.preprocess Header.empty_include Header.no_expansion
                          Text.source_lines ∅
       = Some (<["__QtHandles_PushButtonControl__" := "1"]> ∅, out)
       /\ length out = 13.
Proof.
  assert (Hg : (∅ : gmap string string) !! "__QtHandles_PushButtonControl__" = None)
    by reflexivity.
  split; [exact Hg|].
  eexists. split.
  - exact (first_inclusion_reads_ButtonControl_once
             Header.empty_include Header.no_expansion ∅ Hg).
  - reflexivity.
Defined.

(** X3. After the header has been included the guard macro is defined,
    whatever the environment was before, provided [ButtonControl.h] does not
    undefine it. *)
Theorem inclusion_defines_guard
  (include_file : string -> gmap string string -> gmap string string * list string)
  (expand : gmap string string -> string -> string)
  (env : gmap string string) :
  (forall e : gmap string string,
     is_Some (e !! "__QtHandles_PushButtonControl__") ->
     is_Some ((include_file "ButtonControl.h" e).1
                !! "__QtHandles_PushButtonControl__")) ->
  exists env' out,
    Preproc.preprocess include_file expand Text.source_lines env = Some (env', out)
    /\ is_Some (env' !! "__QtHandles_PushButtonControl__").
Proof.
  intros Hkeep. eapply guarded_defines; [exact source_guard|].
  intros f e Hf. rewrite guarded_includes in Hf.
  destruct Hf as [<-|[]]. apply Hkeep.
Qed.

Lemma inclusion_defines_guard_witness :
  (forall e : gmap string string,
     is_Some (e !! "__QtHandles_PushButtonControl__") ->
     is_Some ((Header.empty_include "ButtonControl.h" e).1
                !! "__QtHandles_PushButtonControl__"))
  /\ exists env' out,
       Preproc.preprocess Header.empty_include Header.no_expansion
                          Text.source_lines ∅ = Some (env', out)
       /\ is_Some (env' !! "__QtHandles_PushButtonControl__").
Proof.
  assert (Hkeep : forall e : gmap string string,
     is_Some (e !! "__QtHandles_PushButtonControl__") ->
     is_Some ((Header.empty_include "ButtonControl.h" e).1
                !! "__QtHandles_PushButtonControl__"))
    by (intros e He; exact He).
  split; [exact Hkeep|].
  exact (inclusion_defines_guard Header.empty_include Header.no_expansion ∅ Hkeep).
Defined.

(** X4. The header touches no macro but its guard: a macro of another name
    that [ButtonControl.h] leaves alone has the same definition, or none,
    after the inclusion as before. *)
Theorem header_changes_no_other_macro
  (include_file : string -> gmap string string -> gmap string string * list string)
  (expand : gmap string string -> string -> string)
  (env : gmap string string) (m : string) :
  m <> "__QtHandles_PushButtonControl__" ->
  (forall e : gmap string string,
     (include_file "ButtonControl.h" e).1 !! m = e !! m) ->
  exists env' out,
    Preproc.preprocess include_file expand Text.source_lines env = Some (env', out)
    /\ env' !! m = env !! m.
Proof.
  intros Hm Hinc.
  destruct (env !! "__QtHandles_PushButtonControl__") as [v|] eqn:Hg.
  - exists env, []. split; [|done].
    eapply guarded_defined; [exact source_guard|].
    unfold Header.guard_macro. rewrite Hg. eauto.
  - eexists _, _. split.
    + exact (first_inclusion_any include_file expand env Hg).
    + rewrite Hinc. unfold Header.guard_macro. by rewrite lookup_insert_ne.
Qed.

Lemma header_changes_no_other_macro_witness :
  "NDEBUG" <> "__QtHandles_PushButtonControl__"
  /\ (forall e : gmap string string,
        (Header.empty_include "ButtonControl.h" e).1 !! "NDEBUG" = e !! "NDEBUG")
  /\ exists env' out,
       Preproc.preprocess Header.empty_include Header.no_expansion
                          Text.source_lines {[ "NDEBUG" := "1" ]}
       = Some (env', out)
       /\ env' !! "NDEBUG" = ({[ "NDEBUG" := "1" ]} : gmap string string) !! "NDEBUG".
Proof.
  assert (Hm : "NDEBUG" <> "__QtHandles_PushButtonControl__") by discriminate.
  assert (Hinc : forall e : gmap string string,
            (Header.empty_include "ButtonControl.h" e).1 !! "NDEBUG" = e !! "NDEBUG")
    by (intros e; reflexivity).
  split; [exact Hm|]. split; [exact Hinc|].
  exact (header_changes_no_other_macro
           Header.empty_include Header.no_expansion _ "NDEBUG" Hm Hinc).
Defined.

(** X5. A circular include is harmless: if [ButtonControl.h] includes
    [PushButtonControl.h] back, the inner copy finds the guard defined and
    adds nothing, so the header gives what it gives next to a
    [ButtonControl.h] that is empty. *)
Theorem circular_include_is_harmless
  (inner : string -> gmap string string -> gmap string string * list string)
  (expand : gmap string string -> string -> string)
  (env : gmap string string) :
  Preproc.preprocess (Surroundings.circular_include inner expand) expand
                     Text.source_lines env
  = Preproc.preprocess Header.empty_include expand Text.source_lines env.
Proof.
  destruct (env !! "__QtHandles_PushButtonControl__") as [v|] eqn:Hg.
  - assert (Hdef : is_Some (env !! Header.guard_macro))
      by (unfold Header.guard_macro; rewrite Hg; eauto).
    rewrite !(guarded_defined _ _ _ _ _ _ _ source_guard Hdef). reflexivity.
  - rewrite !first_inclusion_any by exact Hg.
    unfold Surroundings.circular_include.
    rewrite (guarded_defined _ _ _ _ _ _ _ source_guard)
      by (rewrite lookup_insert_eq; eauto).
    reflexivity.
Qed.

